(** * LinkHub: the link store and query layer of [linkhub.py]

    A shallow embedding of the store and query code of the single-file
    Flask application [src/linkhub.py], and the properties its
    specification states about it.

    Conventions of the embedding.
    - Python [str] is [string]; a character is read as the code point
      0..255 it carries (Latin-1), which fixes [str.strip], [str.lower]
      and [int] on every representable text.
    - A link is the [dict] the program reads from and writes to
      [links.json].  The code reads every key with [dict.get], so each key
      may be absent: a field is an [option].  Values are of the type the
      program itself writes (an integer id, text elsewhere).
    - File access, the clock and Flask's [abort] are effects: a handler is
      a function from the world to an outcome and a new world. *)

From Stdlib Require Import ZArith String Ascii Lia.
From stdpp Require Import base decidable option list strings gmap sorting.

Local Open Scope Z_scope.
Local Open Scope string_scope.

(** ** Python text primitives *)

Module Py.

(** [str.isspace] on one character, for the code points below 256. *)
Definition isspace (c : ascii) : bool :=
  let n := N_of_ascii c in
  ((9 <=? n) && (n <=? 13) || (28 <=? n) && (n <=? 32)
   || (n =? 133) || (n =? 160))%N.

Fixpoint lstrip (s : string) : string :=
  match s with
  | EmptyString => EmptyString
  | String c r => if isspace c then lstrip r else s
  end.

Fixpoint rstrip (s : string) : string :=
  match s with
  | EmptyString => EmptyString
  | String c r =>
      match rstrip r with
      | EmptyString => if isspace c then EmptyString else String c EmptyString
      | r' => String c r'
      end
  end.

(** [s.strip()] *)
Definition strip (s : string) : string := rstrip (lstrip s).

(** [str.lower] on one character: A-Z and the Latin-1 capitals
    (0xC0-0xDE without the multiplication sign 0xD7) move up by 32. *)
Definition lower_char (c : ascii) : ascii :=
  let n := N_of_ascii c in
  if ((65 <=? n) && (n <=? 90)
      || (192 <=? n) && (n <=? 222) && negb (n =? 215))%N
  then ascii_of_N (n + 32) else c.

(** [s.lower()] *)
Fixpoint lower (s : string) : string :=
  match s with
  | EmptyString => EmptyString
  | String c r => String (lower_char c) (lower r)
  end.

(** [bool(s)] for a string: non-empty. *)
Definition truthy (s : string) : bool :=
  match s with EmptyString => false | _ => true end.

(** [p] is a prefix of [s] ([s.startswith(p)]). *)
Fixpoint startswith (p s : string) : bool :=
  match p, s with
  | EmptyString, _ => true
  | String a p', String b s' => bool_decide (a = b) && startswith p' s'
  | String _ _, EmptyString => false
  end.

(** [sub in s] for strings: [sub] occurs in [s] at some position. *)
Fixpoint contains (sub s : string) : bool :=
  startswith sub s ||
  match s with
  | EmptyString => false
  | String _ s' => contains sub s'
  end.

Definition isdigit (c : ascii) : bool :=
  let n := N_of_ascii c in ((48 <=? n) && (n <=? 57))%N.

Definition digit_val (c : ascii) : Z := Z.of_N (N_of_ascii c) - 48.

(** The digits of an integer literal as [int] accepts them: at least one
    digit, single underscores allowed between digits only.  [acc] is the
    value read so far, [after_digit] tells whether the previous character
    was a digit. *)
Fixpoint int_digits (acc : Z) (after_digit : bool) (s : string) : option Z :=
  match s with
  | EmptyString => if after_digit then Some acc else None
  | String c r =>
      if isdigit c then int_digits (10 * acc + digit_val c) true r
      else if bool_decide (c = "_"%char) && after_digit
           then int_digits acc false r
           else None
  end.

(** The blanks [int] skips around a literal: the six of C's [isspace]
    and, above 127, the Unicode spaces 0x85 and 0xA0.  The separators
    28..31, which [str.strip] removes, are not among them. *)
Definition int_isspace (c : ascii) : bool :=
  let n := N_of_ascii c in
  ((9 <=? n) && (n <=? 13) || (n =? 32) || (n =? 133) || (n =? 160))%N.

Fixpoint int_lstrip (s : string) : string :=
  match s with
  | EmptyString => EmptyString
  | String c r => if int_isspace c then int_lstrip r else s
  end.

Fixpoint int_rstrip (s : string) : string :=
  match s with
  | EmptyString => EmptyString
  | String c r =>
      match int_rstrip r with
      | EmptyString => if int_isspace c then EmptyString else String c EmptyString
      | r' => String c r'
      end
  end.

(** The number of digits in a literal, leading zeros included. *)
Fixpoint count_digits (s : string) : Z :=
  match s with
  | EmptyString => 0
  | String c r => (if isdigit c then 1 else 0) + count_digits r
  end.

(** CPython's default limit on the digits of a decimal literal
    ([sys.int_info.default_max_str_digits]). *)
Definition int_max_str_digits : Z := 4300.

(** [int(s)] in base 10; [None] stands for [ValueError]: blanks around
    the literal are skipped, one sign may lead, and a literal of more than
    [int_max_str_digits] digits is refused. *)
Definition int (s : string) : option Z :=
  let t := int_rstrip (int_lstrip s) in
  let '(negative, body) :=
    match t with
    | String "-" r => (true, r)
    | String "+" r => (false, r)
    | _ => (false, t)
    end in
  match int_digits 0 false body with
  | None => None
  | Some v =>
      if count_digits body >? int_max_str_digits then None
      else Some (if negative then - v else v)
  end.

(** [max] of a non-empty iterable, as CPython computes it: keep the
    first item and replace it by each later item that is greater. *)
Definition max (first : Z) (rest : list Z) : Z :=
  fold_left (fun m x => if x >? m then x else m) rest first.

End Py.

(** ** Links *)

(** One entry of [links.json].  [None] is an absent key. *)
Record link := Link {
  get_id : option Z;
  get_title : option string;
  get_url : option string;
  get_notes : option string;
  get_category : option string;
  get_created : option string
}.

#[global] Instance link_eq_dec : EqDecision link.
Proof. solve_decision. Defined.

(** [d.get(key, dflt)] on a field. *)
Definition get_or {A} (field : option A) (dflt : A) : A := default dflt field.

(** [key in d] on a field. *)
Definition has_key {A} (field : option A) : bool :=
  match field with Some _ => true | None => false end.

(** [bool(l)] for a dict: it has at least one key. *)
Definition dict_truthy (l : link) : bool :=
  has_key (get_id l) || has_key (get_title l) || has_key (get_url l)
  || has_key (get_notes l) || has_key (get_category l)
  || has_key (get_created l).

Definition seed (i : Z) (t u n c : string) : link :=
  Link (Some i) (Some t) (Some u) (Some n) (Some c) (Some "").

Definition DEFAULT_LINKS : list link :=
  [ seed 1 "Google" "https://www.google.com" "Search" "Search";
    seed 2 "GitHub" "https://github.com" "Code hosting" "Dev";
    seed 3 "YouTube" "https://www.youtube.com" "Videos" "Media" ].

(** [l['created'] = v] *)
Definition set_created (v : string) (l : link) : link :=
  Link (get_id l) (get_title l) (get_url l) (get_notes l) (get_category l)
       (Some v).

(** [next_id(links)] *)
Definition next_id (links : list link) : Z :=
  match links with
  | [] => 1
  | l :: rest => Py.max (get_or (get_id l) 0)
                        (map (fun l => get_or (get_id l) 0) rest) + 1
  end.

(** ** The query layer: the two filters of [index] *)

(** [if cat: filtered = [l for l in filtered
                          if (l.get('category','') or '').lower() == cat.lower()]]
    An absent category reads as the empty string. *)
Definition category_matches (cat : string) (l : link) : bool :=
  bool_decide (Py.lower (get_or (get_category l) "") = Py.lower cat).

Definition filter_by_category (links : list link) (cat : string) : list link :=
  if Py.truthy cat then filter (fun l => category_matches cat l) links
  else links.

(** [ql in l.get('title','').lower() or ql in l.get('notes','').lower()
     or ql in l.get('url','').lower()] *)
Definition text_matches (ql : string) (l : link) : bool :=
  Py.contains ql (Py.lower (get_or (get_title l) ""))
  || Py.contains ql (Py.lower (get_or (get_notes l) ""))
  || Py.contains ql (Py.lower (get_or (get_url l) "")).

(** [if q: ql = q.lower(); filtered = [l for l in filtered if ...]] *)
Definition filter_by_text (links : list link) (q : string) : list link :=
  if Py.truthy q then
    let ql := Py.lower q in filter (fun l => text_matches ql l) links
  else links.

(** [next((l for l in links if l.get('id') == link_id), None)] *)
Fixpoint find_by_id (links : list link) (link_id : Z) : option link :=
  match links with
  | [] => None
  | l :: rest =>
      if bool_decide (get_id l = Some link_id) then Some l
      else find_by_id rest link_id
  end.

(** [l.get('category')] when it is truthy: present and non-empty. *)
Definition truthy_category (l : link) : option string :=
  match get_category l with
  | Some c => if Py.truthy c then Some c else None
  | None => None
  end.

(** Python orders strings by code point, position by position. *)
Definition str_le (a b : string) : Prop := String.leb a b = true.

#[global] Instance str_le_dec a b : Decision (str_le a b).
Proof. unfold str_le. apply _. Defined.

(** [sorted(list({l.get('category','') for l in links if l.get('category')}))],
    the category menu of [index]: a set, listed, then sorted. *)
Definition categories (links : list link) : list string :=
  merge_sort str_le
    (elements (list_to_set (omap truthy_category links) : gset string)).

(** ** Effects: the data file, the clock, exceptions and [abort] *)

(** What [DATA_FILE] holds when it exists: a JSON array of links, or text
    that [json.load] rejects. *)
Inductive document :=
| Json (links : list link)
| Corrupt.

(** The world a request runs in.  [data_file = None]: the file does not
    exist.  [can_read] and [can_write] tell whether [open(DATA_FILE, 'r')]
    and [open(DATA_FILE, 'w')] succeed (permissions).  [ticks] counts the
    readings of the clock taken so far. *)
Record world := World {
  data_file : option document;
  can_read : bool;
  can_write : bool;
  ticks : nat
}.

Inductive exn := OSError | ValueError | TypeError | UndefinedError.

(** How a piece of handler code ends: with a value, with Flask's
    [abort(status)], or with another exception unwinding. *)
Inductive outcome (A : Type) :=
| Done (a : A)
| Abort (status : Z)
| Raised (e : exn).
Arguments Done {A} a.
Arguments Abort {A} status.
Arguments Raised {A} e.

(** The error kinds of the specification, as the code produces them. *)
Definition ValidationError {A} : outcome A := Abort 400.
Definition Forbidden {A} : outcome A := Abort 403.
Definition NotFound {A} : outcome A := Abort 404.
Definition StorageUnavailable {A} : outcome A := Raised OSError.

Definition M (A : Type) : Type := world -> outcome A * world.

Definition ret {A} (a : A) : M A := fun w => (Done a, w).

Definition bind {A B} (m : M A) (k : A -> M B) : M B :=
  fun w =>
    match m w with
    | (Done a, w') => k a w'
    | (Abort st, w') => (Abort st, w')
    | (Raised e, w') => (Raised e, w')
    end.

Notation "'do' x <- m ; k" := (bind m (fun x => k))
  (at level 10, x name, m at level 100, k at level 200).
Notation "'run' m ; k" := (bind m (fun _ => k))
  (at level 10, m at level 100, k at level 200).

Definition abort {A} (status : Z) : M A := fun w => (Abort status, w).
Definition raise {A} (e : exn) : M A := fun w => (Raised e, w).

(** [try: body except Exception: handler].  Flask's [HTTPException] is an
    [Exception] too, so an [abort] inside [body] is caught as well. *)
Definition try_except {A} (body handler : M A) : M A :=
  fun w =>
    match body w with
    | (Done a, w') => (Done a, w')
    | (_, w') => handler w'
    end.

(** [os.path.exists(DATA_FILE)] *)
Definition path_exists : M bool :=
  fun w => (Done (has_key (data_file w)), w).

(** [with open(DATA_FILE, 'r') as f: return json.load(f)] *)
Definition read_json : M (list link) :=
  fun w =>
    match data_file w with
    | None => (Raised OSError, w)
    | Some d =>
        if can_read w then
          match d with
          | Json links => (Done links, w)
          | Corrupt => (Raised ValueError, w)
          end
        else (Raised OSError, w)
    end.

(** [save_links(links)]: the whole document is replaced. *)
Definition save_links (links : list link) : M unit :=
  fun w =>
    if can_write w
    then (Done tt, World (Some (Json links)) (can_read w) (can_write w) (ticks w))
    else (Raised OSError, w).

(** ** Requests and responses *)

(** [request.form] and [request.args]: the first value of a key wins. *)
Definition multidict := list (string * string).

(** [d.get(key)] *)
Fixpoint lookup_key (d : multidict) (key : string) : option string :=
  match d with
  | [] => None
  | (k, v) :: rest => if bool_decide (k = key) then Some v else lookup_key rest key
  end.

(** What a handler hands back to Flask.  Of a rendered page only the
    template and the links passed to it are kept. *)
Inductive response :=
| Redirect (location : option string)
| Rendered (template : string) (links : list link)
| JsonBody (links : list link).

(** ** The store and the routes *)

Section LinkHub.

(** The secret the process was started with ([ADMIN_PASSWORD]). *)
Variable ADMIN_PASSWORD : string.

(** [urlparse(url).scheme] of the Python library; [None] when [urlparse]
    raises [ValueError]. *)
Variable urlparse_scheme : string -> option string.

(** [datetime.utcnow().isoformat()] at the n-th reading of the clock. *)
Variable isoformat_at : nat -> string.

Definition utcnow_isoformat : M string :=
  fun w => (Done (isoformat_at (ticks w)),
            World (data_file w) (can_read w) (can_write w) (S (ticks w))).

(** [for l in DEFAULT_LINKS: l['created'] = datetime.utcnow().isoformat() + 'Z']
    The loop overwrites [created] in every default link and nothing else
    ever writes to these dicts, so the list it leaves behind depends on
    the clock only, not on earlier runs of the loop. *)
Fixpoint stamp_all (links : list link) : M (list link) :=
  match links with
  | [] => ret []
  | l :: rest =>
      do now <- utcnow_isoformat;
      do rest' <- stamp_all rest;
      ret (set_created (now ++ "Z") l :: rest')
  end.

(** [load_links()] *)
Definition load_links : M (list link) :=
  do present <- path_exists;
  run (if negb present
       then (do stamped <- stamp_all DEFAULT_LINKS; save_links stamped)
       else ret tt);
  try_except read_json (ret []).

(** [render_template_string(BASE_HTML, links=shown, ...)].  For each link
    the template prints [l.id], [l.title], [l.url], [l.notes] and
    [l.category], where an absent key prints as nothing, and
    [l.created[:10]], where an absent key makes Jinja raise
    [UndefinedError]: the page renders when every shown link has a
    [created] key. *)
Definition render_base (shown : list link) : M response :=
  if forallb (fun l => has_key (get_created l)) shown
  then ret (Rendered "BASE_HTML" shown)
  else raise UndefinedError.

(** [index()], for the query string [args].  The category menu and the
    date shown in the page are computed from the same data and do not
    reach the result kept here; the clock is read once, before the page
    is rendered. *)
Definition index (args : multidict) : M response :=
  let q := Py.strip (get_or (lookup_key args "q") "") in
  let cat := Py.strip (get_or (lookup_key args "category") "") in
  do links <- load_links;
  let filtered := filter_by_text (filter_by_category links cat) q in
  do now <- utcnow_isoformat;
  render_base filtered.

(** [redirect_link(link_id)] *)
Definition redirect_link (link_id : Z) : M response :=
  do links <- load_links;
  match find_by_id links link_id with
  | None => abort 404
  | Some found =>
      if negb (dict_truthy found) then abort 404
      else ret (Redirect (get_url found))
  end.

(** [admin_index()].  [ADMIN_HTML] only prints fields of the links, so
    an absent key cannot make it fail. *)
Definition admin_index : M response :=
  do links <- load_links;
  ret (Rendered "ADMIN_HTML" links).

(** The dict [admin_add] builds. *)
Definition new_link (i : Z) (title url notes category created : string) : link :=
  Link (Some i) (Some title) (Some url) (Some notes) (Some category)
       (Some created).

(** [admin_add()], for the posted [form]. *)
Definition admin_add (form : multidict) : M response :=
  let pw := get_or (lookup_key form "pass") "" in
  if bool_decide (pw <> ADMIN_PASSWORD) then abort 403 else
  let title := Py.strip (get_or (lookup_key form "title") "") in
  let url := Py.strip (get_or (lookup_key form "url") "") in
  let category := Py.strip (get_or (lookup_key form "category") "") in
  let notes := Py.strip (get_or (lookup_key form "notes") "") in
  if negb (Py.truthy title && Py.truthy url) then abort 400 else
  do url <- match urlparse_scheme url with
            | None => raise ValueError
            | Some scheme =>
                ret (if negb (Py.truthy scheme) then "https://" ++ url else url)
            end;
  do links <- load_links;
  let i := next_id links in
  do now <- utcnow_isoformat;
  let new := new_link i title url notes category (now ++ "Z") in
  run save_links (links ++ [new]);
  ret (Redirect (Some "/admin")).

(** [int(request.form.get('id'))]: [int(None)] raises [TypeError]. *)
Definition int_of_field (field : option string) : M Z :=
  match field with
  | None => raise TypeError
  | Some s => match Py.int s with
              | None => raise ValueError
              | Some n => ret n
              end
  end.

(** [admin_delete()], for the posted [form]. *)
Definition admin_delete (form : multidict) : M response :=
  let pw := get_or (lookup_key form "pass") "" in
  if bool_decide (pw <> ADMIN_PASSWORD) then abort 403 else
  do lid <- try_except (int_of_field (lookup_key form "id")) (abort 400);
  do links <- load_links;
  let links := filter (fun l => bool_decide (get_id l <> Some lid)) links in
  run save_links links;
  ret (Redirect (Some "/admin")).

(** [api_links()] *)
Definition api_links : M response :=
  do links <- load_links;
  ret (JsonBody links).

End LinkHub.

(** A urlparse stand-in for closed examples: the scheme is the text before
    the first colon when that text starts with a letter and holds only
    letters, digits, [+], [-] and [.]. *)
Module UrlModel.

Definition isalpha (c : ascii) : bool :=
  let n := N_of_ascii c in
  ((65 <=? n) && (n <=? 90) || (97 <=? n) && (n <=? 122))%N.

Definition scheme_char (c : ascii) : bool :=
  isalpha c || Py.isdigit c
  || bool_decide (c = "+"%char) || bool_decide (c = "-"%char)
  || bool_decide (c = "."%char).

(** The text before the first colon, when it is made of scheme characters. *)
Fixpoint before_colon (s : string) : option string :=
  match s with
  | EmptyString => None
  | String c r =>
      if bool_decide (c = ":"%char) then Some EmptyString
      else if scheme_char c then String c <$> before_colon r
      else None
  end.

Definition scheme (url : string) : option string :=
  match url with
  | String c _ =>
      if isalpha c then
        match before_colon url with
        | Some s => Some (Py.lower s)
        | None => Some EmptyString
        end
      else Some EmptyString
  | EmptyString => Some EmptyString
  end.

End UrlModel.

(** ** The specification's vocabulary *)

(** [q] occurs in [s] when case is ignored. *)
Definition ci_substring (q s : string) : Prop :=
  exists pre post, Py.lower s = pre ++ Py.lower q ++ post.

(** [a] and [b] are equal when case is ignored. *)
Definition ci_equal (a b : string) : Prop := Py.lower a = Py.lower b.

(** A link is a hit of the text query: its title, notes or url holds it. *)
Definition text_hit (q : string) (l : link) : Prop :=
  ci_substring q (get_or (get_title l) "")
  \/ ci_substring q (get_or (get_notes l) "")
  \/ ci_substring q (get_or (get_url l) "").

(** The id [next_id] sees in an entry: [l.get('id', 0)]. *)
Definition id_of (l : link) : Z := get_or (get_id l) 0.

(** The default links after the stamping loop that starts at clock
    reading [t]: one reading per link, in order. *)
Fixpoint stamped_from (clock : nat -> string) (t : nat) (links : list link)
  : list link :=
  match links with
  | [] => []
  | l :: rest =>
      set_created (clock t ++ "Z") l :: stamped_from clock (S t) rest
  end.

(** The collection [load_links] reports for an existing document. *)
Definition visible (readable : bool) (d : document) : list link :=
  if readable then match d with Json links => links | Corrupt => [] end
  else [].

(** The url [admin_add] stores: the submitted one, with [https://] put in
    front when [urlparse] finds no scheme in it. *)
Definition normalized (scheme url : string) : string :=
  match scheme with
  | EmptyString => "https://" ++ url
  | _ => url
  end.

(** The posted secret, as both admin routes read it. *)
Definition posted_secret (form : multidict) : string :=
  get_or (lookup_key form "pass") "".

(** A posted field after trimming, as [admin_add] reads it. *)
Definition trimmed (form : multidict) (key : string) : string :=
  Py.strip (get_or (lookup_key form key) "").

(** The link an accepted add appends: id [i], the trimmed fields of the
    form, the url normalised under [scheme], the clock reading [now]. *)
Definition added_link (form : multidict) (scheme : string) (i : Z) (now : string)
  : link :=
  Link (Some i) (Some (trimmed form "title"))
       (Some (normalized scheme (trimmed form "url")))
       (Some (trimmed form "notes")) (Some (trimmed form "category"))
       (Some (now ++ "Z")).

(** What a delete of [lid] keeps. *)
Definition without_id (lid : Z) (links : list link) : list link :=
  filter (fun l => get_id l <> Some lid) links.

(** The same world, [n] clock readings later. *)
Definition later (n : nat) (w : world) : world :=
  World (data_file w) (can_read w) (can_write w) (n + ticks w).

(** The same world with the document replaced. *)
Definition rewritten (links : list link) (w : world) : world :=
  World (Some (Json links)) (can_read w) (can_write w) (ticks w).

(** ** Facts about the Python primitives *)

Section PyFacts.

Lemma startswith_spec p s :
  Py.startswith p s = true <-> exists post, s = p ++ post.
Proof.
  revert s. induction p as [|a p IH]; intros s; simpl.
  - split; [intros _; exists s; reflexivity | reflexivity].
  - destruct s as [|b s]; simpl.
    + split; [discriminate | intros [post H]; discriminate].
    + rewrite andb_true_iff, IH. split.
      * intros [Hab [post ->]]. apply bool_decide_eq_true in Hab. subst b.
        exists post. reflexivity.
      * intros [post H]. injection H as -> ->. split.
        -- apply bool_decide_eq_true. reflexivity.
        -- exists post. reflexivity.
Qed.

Lemma contains_spec sub s :
  Py.contains sub s = true <-> exists pre post, s = pre ++ sub ++ post.
Proof.
  induction s as [|c s IH]; simpl; rewrite orb_true_iff.
  - split.
    + intros [H | H]; [|discriminate].
      apply startswith_spec in H as [post ->]. exists "", post. reflexivity.
    + intros [pre [post H]]. left. apply startswith_spec.
      destruct pre; simpl in H; [exists post; exact H | discriminate].
  - rewrite IH. split.
    + intros [H | [pre [post ->]]].
      * apply startswith_spec in H as [post ->]. exists "", post. reflexivity.
      * exists (String c pre), post. reflexivity.
    + intros [pre [post H]]. destruct pre as [|c' pre]; simpl in H.
      * left. apply startswith_spec. exists post. exact H.
      * right. injection H as -> ->. exists pre, post. reflexivity.
Qed.

Lemma contains_lower q s :
  Py.contains (Py.lower q) (Py.lower s) = true <-> ci_substring q s.
Proof. apply contains_spec. Qed.

Lemma max_ge_first first rest : first <= Py.max first rest.
Proof.
  unfold Py.max. revert first.
  induction rest as [|x rest IH]; intros first; simpl; [lia|].
  destruct (Z.gtb_spec x first); [specialize (IH x) | specialize (IH first)]; lia.
Qed.

Lemma max_ge_rest first rest x : x ∈ rest -> x <= Py.max first rest.
Proof.
  unfold Py.max. revert first.
  induction rest as [|y rest IH]; intros first Hx; [inversion Hx|].
  simpl. apply elem_of_cons in Hx as [-> | Hx]; [|apply IH, Hx].
  destruct (Z.gtb_spec y first) as [Hgt | Hle].
  - apply (max_ge_first y rest).
  - pose proof (max_ge_first first rest) as H. unfold Py.max in H. lia.
Qed.

Lemma max_attained first rest :
  Py.max first rest = first \/ Py.max first rest ∈ rest.
Proof.
  unfold Py.max. revert first.
  induction rest as [|y rest IH]; intros first; simpl; [left; reflexivity|].
  destruct (y >? first).
  - destruct (IH y) as [-> | H]; right; [left | right; exact H].
  - destruct (IH first) as [-> | H]; [left; reflexivity | right; right; exact H].
Qed.

End PyFacts.

#[global] Instance ci_substring_dec q s : Decision (ci_substring q s).
Proof.
  destruct (Py.contains (Py.lower q) (Py.lower s)) eqn:E.
  - left. apply contains_lower, E.
  - right. intros H. apply contains_lower in H. congruence.
Defined.

#[global] Instance text_hit_dec q l : Decision (text_hit q l).
Proof. unfold text_hit. apply _. Defined.

#[global] Instance ci_equal_dec a b : Decision (ci_equal a b).
Proof. unfold ci_equal. apply _. Defined.

(** ** Identifier assignment *)

Section NextId.

Lemma next_id_above links l : l ∈ links -> id_of l < next_id links.
Proof.
  destruct links as [|l0 rest]; intros Hl; [inversion Hl|].
  unfold next_id. apply elem_of_cons in Hl as [-> | Hl].
  - pose proof (max_ge_first (id_of l0) (map id_of rest)).
    unfold id_of in *. lia.
  - assert (id_of l <= Py.max (id_of l0) (map id_of rest)) as H.
    { apply max_ge_rest. apply list_elem_of_fmap. exists l. auto. }
    unfold id_of in *. lia.
Qed.

Lemma next_id_attained links :
  links <> [] -> exists l, l ∈ links /\ next_id links = id_of l + 1.
Proof.
  destruct links as [|l0 rest]; intros Hne; [congruence|].
  unfold next_id.
  destruct (max_attained (id_of l0) (map id_of rest)) as [H | H].
  - exists l0. split; [left | unfold id_of in *; lia].
  - apply list_elem_of_fmap in H as [l [Hl Hin]].
    exists l. split; [right; exact Hin | unfold id_of in *; lia].
Qed.

(** No stored entry carries the id [next_id] hands out. *)
Lemma next_id_fresh links l : l ∈ links -> get_id l <> Some (next_id links).
Proof.
  intros Hl Heq. apply next_id_above in Hl.
  unfold id_of in Hl. rewrite Heq in Hl. simpl in Hl. lia.
Qed.

(** C3: [next_id] returns 1 on the empty collection; on any other
    collection it returns one more than the greatest id in it: the result
    lies above every entry's id and is the successor of some entry's id
    (an entry without an id counts as 0, as [l.get('id', 0)] reads it).
    In particular a collection whose ids are 1, 3 and 5, in any order,
    gets 6. *)
Theorem next_id_spec (links : list link) :
  next_id [] = 1
  /\ (forall l, l ∈ links -> id_of l < next_id links)
  /\ (links = [] \/ exists l, l ∈ links /\ next_id links = id_of l + 1)
  /\ (get_id <$> links ≡ₚ [Some 1; Some 3; Some 5] -> next_id links = 6).
Proof.
  split; [reflexivity|]. split; [apply next_id_above|]. split.
  - destruct links as [|l0 rest]; [left; reflexivity|].
    right. apply next_id_attained. discriminate.
  - intros Hperm.
    assert (forall l, l ∈ links -> id_of l = 1 \/ id_of l = 3 \/ id_of l = 5) as Hids.
    { intros l Hl.
      assert (get_id l ∈ get_id <$> links) as Hin
        by (apply list_elem_of_fmap; exists l; auto).
      rewrite Hperm in Hin. unfold id_of.
      repeat (apply elem_of_cons in Hin as [-> | Hin]); simpl; auto.
      inversion Hin. }
    assert (Some 5 ∈ get_id <$> links) as H5
      by (rewrite Hperm; do 2 right; left).
    apply list_elem_of_fmap in H5 as [l5 [E5 Hl5]].
    destruct (next_id_attained links) as [l [Hl Hnext]].
    { intros ->. inversion Hl5. }
    pose proof (next_id_above links l5 Hl5) as Habove.
    unfold id_of in Habove at 1. rewrite <- E5 in Habove. simpl in Habove.
    destruct (Hids l Hl) as [H | [H | H]]; lia.
Qed.

End NextId.

(** ** The query layer *)

Section QueryLayer.

Lemma ci_substring_empty s : ci_substring "" s.
Proof. exists "", (Py.lower s). reflexivity. Qed.

Lemma text_matches_hit q l : text_matches (Py.lower q) l <-> text_hit q l.
Proof.
  unfold text_matches, text_hit.
  rewrite !orb_True, !Is_true_true, !contains_lower. tauto.
Qed.

Lemma category_matches_equal cat l :
  category_matches cat l <-> ci_equal (get_or (get_category l) "") cat.
Proof. unfold category_matches. apply bool_decide_spec. Qed.

Lemma filter_everything {A} (P : A -> Prop) `{!forall x, Decision (P x)} (l : list A) :
  (forall x, P x) -> filter P l = l.
Proof.
  intros HP. induction l as [|x l IH]; [reflexivity|].
  rewrite filter_cons_True by apply HP. rewrite IH. reflexivity.
Qed.

Lemma filter_keeps_all {A} (P : A -> Prop) `{!forall x, Decision (P x)} (l : list A) :
  (forall x, x ∈ l -> P x) -> filter P l = l.
Proof.
  induction l as [|x l IH]; intros HP; [reflexivity|].
  rewrite filter_cons_True by (apply HP; left).
  rewrite IH; [reflexivity|]. intros y Hy. apply HP. right. exact Hy.
Qed.

Lemma filter_swap {A} (P Q : A -> Prop)
      `{!forall x, Decision (P x)} `{!forall x, Decision (Q x)} (l : list A) :
  filter P (filter Q l) = filter Q (filter P l).
Proof.
  rewrite !list_filter_filter. apply list_filter_iff. intros x. tauto.
Qed.

Lemma filter_by_text_hits links q :
  filter_by_text links q = filter (text_hit q) links.
Proof.
  unfold filter_by_text. destruct q as [|c q]; simpl.
  - symmetry. apply filter_everything. intros l. left. apply ci_substring_empty.
  - apply list_filter_iff. intros l. apply (text_matches_hit (String c q)).
Qed.

Lemma filter_by_category_hits links cat :
  cat <> "" ->
  filter_by_category links cat
  = filter (fun l => ci_equal (get_or (get_category l) "") cat) links.
Proof.
  intros Hne. unfold filter_by_category.
  destruct cat as [|c cat]; [congruence|]. simpl.
  apply list_filter_iff. intros l. apply category_matches_equal.
Qed.

Lemma filter_by_category_sublist links cat :
  filter_by_category links cat `sublist_of` links.
Proof.
  unfold filter_by_category. destruct (Py.truthy cat); [apply sublist_filter | reflexivity].
Qed.

(** C7: for every collection and query, [filter_by_text] keeps exactly the
    links whose title, notes or url holds the query when case is ignored,
    in the order and number they have in the collection; the result is a
    subsequence of the collection; the empty query keeps everything; the
    query "git" keeps every link titled "GitHub". *)
Theorem filter_by_text_spec (links : list link) (q : string) :
  filter_by_text links q = filter (text_hit q) links
  /\ filter_by_text links q `sublist_of` links
  /\ (forall l, l ∈ filter_by_text links q <-> l ∈ links /\ text_hit q l)
  /\ filter_by_text links "" = links
  /\ (forall l, l ∈ links -> get_title l = Some "GitHub" ->
                l ∈ filter_by_text links "git").
Proof.
  split; [apply filter_by_text_hits|]. split.
  { rewrite filter_by_text_hits. apply sublist_filter. } split.
  { intros l. rewrite filter_by_text_hits, list_elem_of_filter. tauto. } split.
  { reflexivity. }
  intros l Hl Ht. rewrite filter_by_text_hits. apply list_elem_of_filter.
  split; [|exact Hl]. left. rewrite Ht. exists "", "hub". reflexivity.
Qed.

(** C8: for every collection and non-empty category argument,
    [filter_by_category] keeps exactly the links whose category equals the
    argument when case is ignored, in the order and number they have in
    the collection; the result is a subsequence of the collection; the
    empty argument keeps everything; the argument "dev" keeps every link
    of category "Dev". *)
Theorem filter_by_category_spec (links : list link) (cat : string) :
  (cat <> "" ->
     filter_by_category links cat
     = filter (fun l => ci_equal (get_or (get_category l) "") cat) links)
  /\ filter_by_category links cat `sublist_of` links
  /\ (cat <> "" -> forall l,
        l ∈ filter_by_category links cat
        <-> l ∈ links /\ ci_equal (get_or (get_category l) "") cat)
  /\ filter_by_category links "" = links
  /\ (forall l, l ∈ links -> get_category l = Some "Dev" ->
                l ∈ filter_by_category links "dev").
Proof.
  split; [apply filter_by_category_hits|]. split.
  { apply filter_by_category_sublist. } split.
  { intros Hne l. rewrite filter_by_category_hits by exact Hne.
    rewrite list_elem_of_filter. tauto. } split.
  { reflexivity. }
  intros l Hl Hc. rewrite filter_by_category_hits by discriminate.
  apply list_elem_of_filter. split; [|exact Hl].
  rewrite Hc. reflexivity.
Qed.

(** C9: the two filters commute, and together they keep exactly the links
    that pass both (the category test being void for the empty argument). *)
Theorem filters_commute (links : list link) (cat q : string) :
  filter_by_text (filter_by_category links cat) q
  = filter_by_category (filter_by_text links q) cat
  /\ (forall l, l ∈ filter_by_text (filter_by_category links cat) q
                <-> l ∈ links
                    /\ (cat = "" \/ ci_equal (get_or (get_category l) "") cat)
                    /\ text_hit q l).
Proof.
  split.
  - rewrite !filter_by_text_hits.
    destruct cat as [|c cat]; [reflexivity|].
    rewrite !filter_by_category_hits by discriminate. apply filter_swap.
  - intros l. rewrite filter_by_text_hits, list_elem_of_filter.
    destruct cat as [|c cat].
    + simpl. split; [intros [? ?]; auto | tauto].
    + rewrite filter_by_category_hits by discriminate.
      rewrite list_elem_of_filter. split.
      * intros [? [? ?]]. auto.
      * intros [? [[H|?] ?]]; [discriminate | auto].
Qed.

End QueryLayer.

(** ** The store: loading, adding, deleting *)

Section Store.

Variable ADMIN_PASSWORD : string.
Variable urlparse_scheme : string -> option string.
Variable isoformat_at : nat -> string.

Lemma bind_done {A B} (m : M A) (k : A -> M B) w a w' :
  m w = (Done a, w') -> bind m k w = k a w'.
Proof. intros H. unfold bind. rewrite H. reflexivity. Qed.

Lemma stamp_all_run links w :
  stamp_all isoformat_at links w
  = (Done (stamped_from isoformat_at (ticks w) links),
     World (data_file w) (can_read w) (can_write w) (length links + ticks w)%nat).
Proof.
  revert w. induction links as [|l rest IH]; intros w.
  - destruct w; reflexivity.
  - simpl. unfold bind at 1. unfold utcnow_isoformat at 1.
    unfold bind at 1. rewrite IH. simpl.
    rewrite Nat.add_succ_r. reflexivity.
Qed.

(** An existing document is never rewritten by [load_links], and never
    makes it fail. *)
Lemma load_present w d :
  data_file w = Some d ->
  load_links isoformat_at w = (Done (visible (can_read w) d), w).
Proof.
  destruct w as [f r wr t]. simpl. intros ->.
  destruct r; [destruct d|]; reflexivity.
Qed.

(** A missing document is seeded when it can be written. *)
Lemma load_absent w :
  data_file w = None -> can_write w = true ->
  let seeds := stamped_from isoformat_at (ticks w) DEFAULT_LINKS in
  load_links isoformat_at w
  = (Done (visible (can_read w) (Json seeds)),
     World (Some (Json seeds)) (can_read w) true (3 + ticks w)).
Proof.
  destruct w as [f r wr t]. simpl. intros -> ->.
  destruct r; reflexivity.
Qed.

Lemma load_absent_unwritable w :
  data_file w = None -> can_write w = false ->
  fst (load_links isoformat_at w) = StorageUnavailable.
Proof. destruct w as [f r wr t]. simpl. intros -> ->. reflexivity. Qed.

(** With a writable store [load_links] succeeds, leaves a document
    behind, and reports what a second [load_links] would report. *)
Lemma load_writable w :
  can_write w = true ->
  exists d w1,
    load_links isoformat_at w = (Done (visible (can_read w) d), w1)
    /\ data_file w1 = Some d
    /\ can_read w1 = can_read w /\ can_write w1 = true
    /\ (forall d0, data_file w = Some d0 -> d = d0 /\ w1 = w).
Proof.
  intros Hw. destruct (data_file w) as [d0|] eqn:Hd.
  - exists d0, w. rewrite (load_present w d0 Hd).
    repeat split; auto; congruence.
  - eexists _, _. rewrite (load_absent w Hd Hw). cbv zeta.
    repeat split; discriminate.
Qed.

Lemma append_Z_nonempty s : s ++ "Z" <> "".
Proof. destruct s; discriminate. Qed.

(** C4: when no document exists (and the data file can be written and
    read), [load_links] writes the seed collection and returns exactly
    three links, with ids 1, 2 and 3 and each with a non-empty [created]
    stamp; afterwards the document exists and holds these links. *)
Theorem load_seeds_fresh_store (w : world) :
  data_file w = None -> can_write w = true -> can_read w = true ->
  exists l1 l2 l3 w',
    load_links isoformat_at w = (Done [l1; l2; l3], w')
    /\ get_id l1 = Some 1 /\ get_id l2 = Some 2 /\ get_id l3 = Some 3
    /\ (forall l, l ∈ [l1; l2; l3] ->
          exists c, get_created l = Some c /\ c <> "")
    /\ data_file w' = Some (Json [l1; l2; l3]).
Proof.
  intros Hd Hw Hr. rewrite (load_absent w Hd Hw). cbv zeta. rewrite Hr.
  simpl. do 4 eexists. split; [reflexivity|].
  repeat split.
  intros l Hl.
  repeat (apply elem_of_cons in Hl as [-> | Hl]);
    [ | | | inversion Hl]; simpl; eexists; (split; [reflexivity|]);
    apply append_Z_nonempty.
Qed.

(** C5 (as the code has it): an existing document that cannot be read,
    whether for permissions or because it does not parse, makes
    [load_links] return the empty collection; the world is left as it
    was and no error is raised. *)
Theorem load_degrades_to_empty (w : world) (d : document) :
  data_file w = Some d -> can_read w = false \/ d = Corrupt ->
  load_links isoformat_at w = (Done [], w).
Proof.
  intros Hd Hbad. rewrite (load_present w d Hd). unfold visible.
  destruct Hbad as [-> | ->]; [reflexivity|].
  destruct (can_read w); reflexivity.
Qed.

(** C10: in both admin routes the secret is compared first.  A request
    whose secret differs from the configured one ends with [Forbidden]
    and leaves the whole world, the data file included, as it was,
    whatever its other fields hold. *)
Theorem wrong_secret_forbidden (form : multidict) (w : world) :
  posted_secret form <> ADMIN_PASSWORD ->
  admin_add ADMIN_PASSWORD urlparse_scheme isoformat_at form w = (Forbidden, w)
  /\ admin_delete ADMIN_PASSWORD isoformat_at form w = (Forbidden, w).
Proof.
  intros Hpw. unfold admin_add, admin_delete, posted_secret in *.
  rewrite bool_decide_eq_true_2 by exact Hpw. split; reflexivity.
Qed.

(** C2: an authorised add whose title or url is empty after trimming
    ends with [ValidationError], which is not the outcome of a storage
    failure, and leaves the world as it was: nothing is loaded, stamped
    or written. *)
Theorem add_rejects_blank (form : multidict) (w : world) :
  posted_secret form = ADMIN_PASSWORD ->
  trimmed form "title" = "" \/ trimmed form "url" = "" ->
  admin_add ADMIN_PASSWORD urlparse_scheme isoformat_at form w
  = (ValidationError, w)
  /\ @ValidationError response <> StorageUnavailable.
Proof.
  intros Hpw Hblank. split; [|discriminate].
  unfold admin_add, posted_secret, trimmed in *.
  rewrite bool_decide_eq_false_2 by (intros H; apply H, Hpw).
  destruct Hblank as [-> | ->]; simpl.
  - reflexivity.
  - rewrite andb_false_r. reflexivity.
Qed.


Lemma visible_idem r d : visible r (Json (visible r d)) = visible r d.
Proof. destruct r; reflexivity. Qed.


(** C6 (as the code has it): an authorised delete, with a decimal id that
    no link of the collection [load_links] reports carries, succeeds when
    the data file can be written, and the collection [load_links] reports
    afterwards is the one it reported before; a document that could be
    read holds the same links as before. *)
Theorem delete_absent_id (form : multidict) (w w1 : world)
        (s : string) (lid : Z) (links : list link) :
  posted_secret form = ADMIN_PASSWORD ->
  lookup_key form "id" = Some s -> Py.int s = Some lid ->
  can_write w = true ->
  load_links isoformat_at w = (Done links, w1) ->
  (forall l, l ∈ links -> get_id l <> Some lid) ->
  exists w2,
    admin_delete ADMIN_PASSWORD isoformat_at form w
    = (Done (Redirect (Some "/admin")), w2)
    /\ load_links isoformat_at w2 = (Done links, w2)
    /\ (forall stored, data_file w = Some (Json stored) -> can_read w = true ->
          data_file w2 = Some (Json stored)).
Proof.
  intros Hpw Hid Hint Hw Hload Habsent.
  destruct (load_writable w Hw) as (d & w1' & Hl & Hd1 & Hr1 & Hw1 & Hsame).
  rewrite Hl in Hload. injection Hload as Hlinks <-.
  assert (filter (fun l => bool_decide (get_id l <> Some lid)) links = links) as Hkeep.
  { apply filter_keeps_all. intros l Hin. apply bool_decide_spec, Habsent, Hin. }
  unfold admin_delete, posted_secret in *.
  rewrite bool_decide_eq_false_2 by (intros H; apply H, Hpw).
  rewrite Hid. unfold bind at 1. unfold try_except, int_of_field.
  rewrite Hint. unfold ret at 1.
  unfold bind at 1. rewrite Hl, Hlinks.
  unfold bind at 1. rewrite Hkeep. unfold save_links. rewrite Hw1. unfold ret.
  eexists. split; [reflexivity|]. split.
  - erewrite load_present by reflexivity. simpl.
    rewrite Hr1, <- Hlinks, visible_idem. reflexivity.
  - intros stored Hstored Hr. simpl.
    destruct (Hsame _ Hstored) as [-> _].
    rewrite <- Hlinks, Hr. reflexivity.
Qed.


End Store.

(** ** How the routes run *)

Section Routes.

Variable ADMIN_PASSWORD : string.
Variable urlparse_scheme : string -> option string.
Variable isoformat_at : nat -> string.

Lemma bind_raised {A B} (m : M A) (k : A -> M B) w e w' :
  m w = (Raised e, w') -> bind m k w = (Raised e, w').
Proof. intros H. unfold bind. rewrite H. reflexivity. Qed.

(** A missing document that cannot be written: the stamping loop has run,
    [save_links] raises, nothing is read. *)
Lemma load_unseedable w :
  data_file w = None -> can_write w = false ->
  load_links isoformat_at w = (Raised OSError, later 3 w).
Proof. destruct w as [f r wr t]. simpl. intros -> ->. reflexivity. Qed.

(** What a successful [load_links] tells about the world it leaves. *)
Lemma load_done_inv w links w1 :
  load_links isoformat_at w = (Done links, w1) ->
  exists d,
    data_file w1 = Some d /\ links = visible (can_read w) d
    /\ can_read w1 = can_read w /\ can_write w1 = can_write w
    /\ (ticks w <= ticks w1)%nat
    /\ (forall d0, data_file w = Some d0 -> w1 = w).
Proof.
  intros Hload. destruct (data_file w) as [d0|] eqn:Hd.
  - rewrite (load_present isoformat_at w d0 Hd) in Hload.
    injection Hload as <- <-. exists d0. repeat split; auto.
  - destruct (can_write w) eqn:Hw.
    + rewrite (load_absent isoformat_at w Hd Hw) in Hload. cbv zeta in Hload.
      injection Hload as <- <-. eexists. simpl.
      repeat split; [lia | discriminate].
    + rewrite (load_unseedable w Hd Hw) in Hload. discriminate.
Qed.

Lemma load_again w links w1 :
  load_links isoformat_at w = (Done links, w1) ->
  load_links isoformat_at w1 = (Done links, w1).
Proof.
  intros Hload.
  destruct (load_done_inv w links w1 Hload) as (d & Hd & -> & Hr & _).
  rewrite (load_present isoformat_at w1 d Hd), Hr. reflexivity.
Qed.


(** An accepted add, up to the write. *)
Lemma admin_add_run form w scheme links w1 :
  posted_secret form = ADMIN_PASSWORD ->
  trimmed form "title" <> "" -> trimmed form "url" <> "" ->
  urlparse_scheme (trimmed form "url") = Some scheme ->
  load_links isoformat_at w = (Done links, w1) ->
  admin_add ADMIN_PASSWORD urlparse_scheme isoformat_at form w
  = let new := added_link form scheme (next_id links) (isoformat_at (ticks w1)) in
    if can_write w1
    then (Done (Redirect (Some "/admin")),
          later 1 (rewritten (links ++ [new])%list w1))
    else (Raised OSError, later 1 w1).
Proof.
  intros Hpw Htitle Hurl Hscheme Hl.
  unfold admin_add, added_link, posted_secret, trimmed in *.
  rewrite bool_decide_eq_false_2 by (intros H; apply H, Hpw).
  destruct (Py.strip (get_or (lookup_key form "title") "")) as [|c t] eqn:Et;
    [congruence|].
  destruct (Py.strip (get_or (lookup_key form "url") "")) as [|c' u] eqn:Eu;
    [congruence|].
  cbn [negb andb Py.truthy].
  erewrite bind_done by (rewrite Hscheme; reflexivity).
  erewrite bind_done by exact Hl.
  erewrite bind_done by reflexivity.
  unfold bind, save_links, later, rewritten, ret. simpl.
  replace (if negb (Py.truthy scheme) then "https://" ++ String c' u else String c' u)
    with (normalized scheme (String c' u)) by (destruct scheme; reflexivity).
  destruct (can_write w1); reflexivity.
Qed.

(** An accepted delete, up to the write. *)
Lemma admin_delete_run form w s lid links w1 :
  posted_secret form = ADMIN_PASSWORD ->
  lookup_key form "id" = Some s -> Py.int s = Some lid ->
  load_links isoformat_at w = (Done links, w1) ->
  admin_delete ADMIN_PASSWORD isoformat_at form w
  = if can_write w1
    then (Done (Redirect (Some "/admin")), rewritten (without_id lid links) w1)
    else (Raised OSError, w1).
Proof.
  intros Hpw Hid Hint Hl. unfold admin_delete, posted_secret in *.
  rewrite bool_decide_eq_false_2 by (intros H; apply H, Hpw).
  rewrite Hid.
  erewrite bind_done
    by (unfold try_except, int_of_field; rewrite Hint; reflexivity).
  erewrite bind_done by exact Hl.
  replace (filter (fun l => bool_decide (get_id l <> Some lid)) links)
    with (without_id lid links)
    by (apply list_filter_iff; intros l; symmetry; apply bool_decide_spec).
  unfold bind, save_links, rewritten, ret.
  destruct (can_write w1); [reflexivity | destruct w1; reflexivity].
Qed.

Lemma without_id_fresh lid links new :
  (forall l, l ∈ links -> get_id l <> Some lid) ->
  get_id new = Some lid ->
  without_id lid (links ++ [new]) = links.
Proof.
  intros Hfresh Hnew. unfold without_id. rewrite filter_app.
  rewrite filter_keeps_all by exact Hfresh.
  rewrite filter_cons, decide_False by (intros H; apply H, Hnew).
  rewrite filter_nil. apply app_nil_r.
Qed.

Lemma find_by_id_none links i :
  find_by_id links i = None <-> forall l, l ∈ links -> get_id l <> Some i.
Proof.
  induction links as [|l0 rest IH]; simpl.
  - split; [intros _ l Hl; inversion Hl | reflexivity].
  - case_bool_decide as Hid.
    + split; [discriminate | intros H; exfalso; apply (H l0); [left | exact Hid]].
    + rewrite IH. split.
      * intros H l Hl. apply elem_of_cons in Hl as [-> | Hl]; auto.
      * intros H l Hl. apply H. right. exact Hl.
Qed.

Lemma find_by_id_first pre l post i :
  get_id l = Some i ->
  (forall l', l' ∈ pre -> get_id l' <> Some i) ->
  find_by_id (pre ++ l :: post) i = Some l.
Proof.
  intros Hl Hpre. induction pre as [|p pre IH]; simpl.
  - rewrite bool_decide_eq_true_2 by exact Hl. reflexivity.
  - rewrite bool_decide_eq_false_2 by (apply Hpre; left).
    apply IH. intros l' Hl'. apply Hpre. right. exact Hl'.
Qed.

Lemma find_by_id_some links i l :
  find_by_id links i = Some l -> l ∈ links /\ get_id l = Some i.
Proof.
  induction links as [|l0 rest IH]; simpl; [discriminate|].
  case_bool_decide as Hid.
  - intros [= ->]. split; [left | exact Hid].
  - intros H. destruct (IH H). split; [right|]; assumption.
Qed.

Lemma has_id_truthy l i : get_id l = Some i -> dict_truthy l = true.
Proof. intros H. unfold dict_truthy. rewrite H. reflexivity. Qed.


Lemma index_run args w links w1 :
  load_links isoformat_at w = (Done links, w1) ->
  index isoformat_at args w
  = render_base
      (filter_by_text (filter_by_category links (trimmed args "category"))
                      (trimmed args "q"))
      (later 1 w1).
Proof.
  intros Hload. unfold index, trimmed.
  erewrite bind_done by exact Hload.
  erewrite bind_done by reflexivity. reflexivity.
Qed.

Lemma renders_iff shown :
  forallb (fun l => has_key (get_created l)) shown = true
  <-> (forall l, l ∈ shown -> get_created l <> None).
Proof.
  rewrite forallb_forall. split.
  - intros H l Hl Hnone. apply list_elem_of_In, H in Hl.
    rewrite Hnone in Hl. discriminate.
  - intros H l Hl. apply list_elem_of_In, H in Hl.
    destruct (get_created l); [reflexivity | congruence].
Qed.

(** X1: a second [load_links] right after a successful one returns the
    same collection and changes nothing; and a first one that found a
    document in place changed nothing either. *)
Theorem load_twice (w w1 : world) (links : list link) :
  load_links isoformat_at w = (Done links, w1) ->
  load_links isoformat_at w1 = (Done links, w1)
  /\ (data_file w <> None -> w1 = w).
Proof.
  intros Hload. split; [apply (load_again w), Hload|].
  intros Hsome. destruct (load_done_inv w links w1 Hload) as (d & _ & _ & _ & _ & _ & Hsame).
  destruct (data_file w) as [d0|] eqn:Hd; [|congruence].
  apply (Hsame d0). reflexivity.
Qed.

(** X2: with no document and no permission to write one, [load_links]
    ends in the uncaught [OSError] of [save_links], after three clock
    readings, and so does every route that only reads; the document is
    still missing afterwards. *)
Theorem unseedable_store_fails (w : world) (args : multidict) (i : Z) :
  data_file w = None -> can_write w = false ->
  load_links isoformat_at w = (StorageUnavailable, later 3 w)
  /\ index isoformat_at args w = (StorageUnavailable, later 3 w)
  /\ redirect_link isoformat_at i w = (StorageUnavailable, later 3 w)
  /\ admin_index isoformat_at w = (StorageUnavailable, later 3 w)
  /\ api_links isoformat_at w = (StorageUnavailable, later 3 w)
  /\ data_file (later 3 w) = None.
Proof.
  intros Hd Hw. pose proof (load_unseedable w Hd Hw) as Hl.
  unfold index, redirect_link, admin_index, api_links, StorageUnavailable.
  repeat split; try (apply bind_raised; exact Hl); [exact Hl | exact Hd].
Qed.

(** X3: [redirect_link] answers 404 exactly when no link of the loaded
    collection carries the requested id. *)
Theorem redirect_not_found_iff (w w1 : world) (links : list link) (i : Z) :
  load_links isoformat_at w = (Done links, w1) ->
  redirect_link isoformat_at i w = (NotFound, w1)
  <-> (forall l, l ∈ links -> get_id l <> Some i).
Proof.
  intros Hload. unfold redirect_link. erewrite bind_done by exact Hload.
  rewrite <- find_by_id_none.
  destruct (find_by_id links i) as [l|] eqn:Hf.
  - apply find_by_id_some in Hf as [_ Hid].
    rewrite (has_id_truthy l i Hid). simpl. split; discriminate.
  - split; reflexivity.
Qed.

(** X4: when several links carry the requested id, [redirect_link] sends
    the client to the url of the first of them in the collection (that url
    may be absent). *)
Theorem redirect_first_match (w w1 : world) (pre post : list link) (l : link) (i : Z) :
  load_links isoformat_at w = (Done (pre ++ l :: post)%list, w1) ->
  get_id l = Some i ->
  (forall l', l' ∈ pre -> get_id l' <> Some i) ->
  redirect_link isoformat_at i w = (Done (Redirect (get_url l)), w1).
Proof.
  intros Hload Hid Hpre. unfold redirect_link.
  erewrite bind_done by exact Hload.
  rewrite (find_by_id_first pre l post i Hid Hpre).
  rewrite (has_id_truthy l i Hid). reflexivity.
Qed.

(** X5: with a document in place [admin_index] and [api_links] cannot
    fail and hand out the same collection, the one [load_links] reports;
    none of the reading routes writes: [admin_index], [api_links] and
    [redirect_link] leave the world untouched and [index] only reads the
    clock once; [index] ends either with its page or with the template's
    [UndefinedError]. *)
Theorem readers_keep_document (w : world) (d : document) (args : multidict) (i : Z) :
  data_file w = Some d ->
  admin_index isoformat_at w = (Done (Rendered "ADMIN_HTML" (visible (can_read w) d)), w)
  /\ api_links isoformat_at w = (Done (JsonBody (visible (can_read w) d)), w)
  /\ snd (redirect_link isoformat_at i w) = w
  /\ snd (index isoformat_at args w) = later 1 w
  /\ (fst (index isoformat_at args w) = Raised UndefinedError
      \/ exists shown, fst (index isoformat_at args w)
                       = Done (Rendered "BASE_HTML" shown)).
Proof.
  intros Hd. pose proof (load_present isoformat_at w d Hd) as Hl.
  rewrite (index_run args w _ w Hl). unfold render_base.
  unfold admin_index, api_links, redirect_link.
  split; [erewrite bind_done by exact Hl; reflexivity|].
  split; [erewrite bind_done by exact Hl; reflexivity|].
  split.
  - erewrite bind_done by exact Hl.
    destruct (find_by_id _ i) as [l|]; [destruct (dict_truthy l)|]; reflexivity.
  - destruct (forallb _ _); simpl; split; try reflexivity.
    + right. eexists. reflexivity.
    + left. reflexivity.
Qed.


(** X7: an authorised delete whose id field is missing or is not a
    decimal integer answers 400 before anything is loaded or written. *)
Theorem delete_rejects_bad_id (form : multidict) (w : world) :
  posted_secret form = ADMIN_PASSWORD ->
  (match lookup_key form "id" with
   | None => True
   | Some s => Py.int s = None
   end) ->
  admin_delete ADMIN_PASSWORD isoformat_at form w = (ValidationError, w).
Proof.
  intros Hpw Hbad. unfold admin_delete, posted_secret in *.
  rewrite bool_decide_eq_false_2 by (intros H; apply H, Hpw).
  unfold bind, try_except, int_of_field.
  destruct (lookup_key form "id") as [s|]; [rewrite Hbad|]; reflexivity.
Qed.

Lemma load_after_write w ls n :
  load_links isoformat_at (later n (rewritten ls w))
  = (Done (visible (can_read w) (Json ls)), later n (rewritten ls w)).
Proof. erewrite load_present by reflexivity. reflexivity. Qed.

Lemma load_after_rewrite w ls :
  load_links isoformat_at (rewritten ls w)
  = (Done (visible (can_read w) (Json ls)), rewritten ls w).
Proof. apply (load_after_write w ls 0). Qed.



(** An accepted add followed by an accepted delete of the id it assigned. *)
Lemma add_delete_run form del w w1 scheme s links :
  posted_secret form = ADMIN_PASSWORD ->
  trimmed form "title" <> "" -> trimmed form "url" <> "" ->
  urlparse_scheme (trimmed form "url") = Some scheme ->
  posted_secret del = ADMIN_PASSWORD ->
  lookup_key del "id" = Some s -> Py.int s = Some (next_id links) ->
  can_write w = true ->
  load_links isoformat_at w = (Done links, w1) ->
  exists w2 w3,
    admin_add ADMIN_PASSWORD urlparse_scheme isoformat_at form w
    = (Done (Redirect (Some "/admin")), w2)
    /\ admin_delete ADMIN_PASSWORD isoformat_at del w2
       = (Done (Redirect (Some "/admin")), w3)
    /\ load_links isoformat_at w3 = (Done links, w3)
    /\ can_write w3 = true /\ can_read w3 = can_read w.
Proof.
  intros Hpw Htitle Hurl Hscheme Hpw' Hid Hint Hw Hload.
  destruct (load_done_inv w links w1 Hload) as (d & Hd & Hlinks & Hr & Hw1 & _).
  set (new := added_link form scheme (next_id links) (isoformat_at (ticks w1))).
  set (w2 := later 1 (rewritten (links ++ [new])%list w1)).
  set (links2 := visible (can_read w1) (Json (links ++ [new])%list)).
  assert (load_links isoformat_at w2 = (Done links2, w2)) as Hload2
    by apply load_after_write.
  assert (without_id (next_id links) links2 = links) as Hback.
  { subst links2. rewrite Hr. destruct (can_read w) eqn:Hcr; simpl.
    - apply without_id_fresh; [|reflexivity].
      intros l Hl. apply next_id_fresh, Hl.
    - rewrite Hlinks. reflexivity. }
  exists w2, (rewritten links w2). split.
  { rewrite (admin_add_run form w scheme links w1 Hpw Htitle Hurl Hscheme Hload).
    cbv zeta. rewrite Hw1, Hw. reflexivity. }
  split.
  { rewrite (admin_delete_run del w2 s (next_id links) links2 w2 Hpw' Hid Hint Hload2).
    simpl can_write. rewrite Hw1, Hw, Hback. reflexivity. }
  split.
  { rewrite (load_after_rewrite w2 links). simpl can_read. rewrite Hr.
    f_equal. f_equal. rewrite Hlinks. apply visible_idem. }
  simpl. rewrite Hw1, Hr. auto.
Qed.

(** X8: on a writable data file, an accepted add followed by an accepted
    delete of the id that add assigned leaves the collection as
    [load_links] reported it before the add. *)
Theorem add_then_delete_restores (form del : multidict) (w w1 : world)
        (scheme s : string) (links : list link) :
  posted_secret form = ADMIN_PASSWORD ->
  trimmed form "title" <> "" -> trimmed form "url" <> "" ->
  urlparse_scheme (trimmed form "url") = Some scheme ->
  posted_secret del = ADMIN_PASSWORD ->
  lookup_key del "id" = Some s -> Py.int s = Some (next_id links) ->
  can_write w = true ->
  load_links isoformat_at w = (Done links, w1) ->
  exists w2 w3,
    admin_add ADMIN_PASSWORD urlparse_scheme isoformat_at form w
    = (Done (Redirect (Some "/admin")), w2)
    /\ admin_delete ADMIN_PASSWORD isoformat_at del w2
       = (Done (Redirect (Some "/admin")), w3)
    /\ load_links isoformat_at w3 = (Done links, w3).
Proof.
  intros Hpw Htitle Hurl Hscheme Hpw' Hid Hint Hw Hload.
  destruct (add_delete_run form del w w1 scheme s links
              Hpw Htitle Hurl Hscheme Hpw' Hid Hint Hw Hload)
    as (w2 & w3 & Hadd & Hdel & Hl3 & _).
  exists w2, w3. auto.
Qed.

(** X9: ids are handed out again.  After an add, a delete of the id it
    assigned and a second add, the second link carries the very id the
    first one had. *)
Theorem deleted_id_is_reused (form del form' : multidict) (w w1 : world)
        (scheme s scheme' : string) (links : list link) :
  posted_secret form = ADMIN_PASSWORD ->
  trimmed form "title" <> "" -> trimmed form "url" <> "" ->
  urlparse_scheme (trimmed form "url") = Some scheme ->
  posted_secret del = ADMIN_PASSWORD ->
  lookup_key del "id" = Some s -> Py.int s = Some (next_id links) ->
  posted_secret form' = ADMIN_PASSWORD ->
  trimmed form' "title" <> "" -> trimmed form' "url" <> "" ->
  urlparse_scheme (trimmed form' "url") = Some scheme' ->
  can_write w = true -> can_read w = true ->
  load_links isoformat_at w = (Done links, w1) ->
  exists w2 w3 w4 now now',
    admin_add ADMIN_PASSWORD urlparse_scheme isoformat_at form w
    = (Done (Redirect (Some "/admin")), w2)
    /\ load_links isoformat_at w2
       = (Done (links ++ [added_link form scheme (next_id links) now])%list, w2)
    /\ admin_delete ADMIN_PASSWORD isoformat_at del w2
       = (Done (Redirect (Some "/admin")), w3)
    /\ admin_add ADMIN_PASSWORD urlparse_scheme isoformat_at form' w3
       = (Done (Redirect (Some "/admin")), w4)
    /\ load_links isoformat_at w4
       = (Done (links ++ [added_link form' scheme' (next_id links) now'])%list, w4).
Proof.
  intros Hpw Htitle Hurl Hscheme Hpw' Hid Hint Hpw2 Htitle2 Hurl2 Hscheme2 Hw Hr Hload.
  destruct (add_delete_run form del w w1 scheme s links
              Hpw Htitle Hurl Hscheme Hpw' Hid Hint Hw Hload)
    as (w2 & w3 & Hadd & Hdel & Hl3 & Hw3 & Hr3).
  destruct (load_done_inv w links w1 Hload) as (d & _ & _ & Hr1 & Hw1 & _).
  exists w2, w3. eexists. exists (isoformat_at (ticks w1)), (isoformat_at (ticks w3)).
  split; [exact Hadd|]. split.
  { rewrite (admin_add_run form w scheme links w1 Hpw Htitle Hurl Hscheme Hload) in Hadd.
    cbv zeta in Hadd. rewrite Hw1, Hw in Hadd. injection Hadd as <-.
    rewrite load_after_write, Hr1, Hr. reflexivity. }
  split; [exact Hdel|].
  rewrite (admin_add_run form' w3 scheme' links w3 Hpw2 Htitle2 Hurl2 Hscheme2 Hl3).
  cbv zeta. rewrite Hw3. split; [reflexivity|].
  rewrite load_after_write, Hr3, Hr. reflexivity.
Qed.


Lemma load_broken w d :
  data_file w = Some d -> can_read w = false \/ d = Corrupt ->
  load_links isoformat_at w = (Done [], w).
Proof.
  intros Hd Hbad. rewrite (load_present isoformat_at w d Hd). unfold visible.
  destruct Hbad as [-> | ->]; [reflexivity|].
  destruct (can_read w); reflexivity.
Qed.

(** X11: when the document exists but cannot be read or does not parse,
    an accepted add on a writable file replaces whatever the document held
    by a collection of one link, the new one, with id 1. *)
Theorem add_overwrites_broken_document (form : multidict) (w : world)
        (d : document) (scheme : string) :
  posted_secret form = ADMIN_PASSWORD ->
  trimmed form "title" <> "" -> trimmed form "url" <> "" ->
  urlparse_scheme (trimmed form "url") = Some scheme ->
  data_file w = Some d -> can_read w = false \/ d = Corrupt ->
  can_write w = true ->
  admin_add ADMIN_PASSWORD urlparse_scheme isoformat_at form w
  = (Done (Redirect (Some "/admin")),
     later 1 (rewritten [added_link form scheme 1 (isoformat_at (ticks w))] w)).
Proof.
  intros Hpw Htitle Hurl Hscheme Hd Hbad Hw.
  rewrite (admin_add_run form w scheme [] w Hpw Htitle Hurl Hscheme
             (load_broken w d Hd Hbad)).
  cbv zeta. rewrite Hw. reflexivity.
Qed.

(** X12: in the same situation an accepted delete, whatever id it names,
    replaces the document by the empty collection. *)
Theorem delete_overwrites_broken_document (form : multidict) (w : world)
        (d : document) (s : string) (lid : Z) :
  posted_secret form = ADMIN_PASSWORD ->
  lookup_key form "id" = Some s -> Py.int s = Some lid ->
  data_file w = Some d -> can_read w = false \/ d = Corrupt ->
  can_write w = true ->
  admin_delete ADMIN_PASSWORD isoformat_at form w
  = (Done (Redirect (Some "/admin")), rewritten [] w).
Proof.
  intros Hpw Hid Hint Hd Hbad Hw.
  rewrite (admin_delete_run form w s lid [] w Hpw Hid Hint (load_broken w d Hd Hbad)).
  rewrite Hw. reflexivity.
Qed.

(** X13: when the document exists and the file cannot be written, an
    accepted add ends in the uncaught [OSError] of [save_links]; the
    document is as it was and the clock has been read once. *)
Theorem add_write_denied (form : multidict) (w : world)
        (d : document) (scheme : string) :
  posted_secret form = ADMIN_PASSWORD ->
  trimmed form "title" <> "" -> trimmed form "url" <> "" ->
  urlparse_scheme (trimmed form "url") = Some scheme ->
  data_file w = Some d -> can_write w = false ->
  admin_add ADMIN_PASSWORD urlparse_scheme isoformat_at form w
  = (StorageUnavailable, later 1 w)
  /\ data_file (later 1 w) = Some d.
Proof.
  intros Hpw Htitle Hurl Hscheme Hd Hw. split; [|exact Hd].
  rewrite (admin_add_run form w scheme _ w Hpw Htitle Hurl Hscheme
             (load_present isoformat_at w d Hd)).
  cbv zeta. rewrite Hw. reflexivity.
Qed.

(** X14: when the document exists and the file cannot be written, an
    accepted delete ends in the uncaught [OSError] of [save_links] and the
    world is as it was, even when no link carries the id. *)
Theorem delete_write_denied (form : multidict) (w : world)
        (d : document) (s : string) (lid : Z) :
  posted_secret form = ADMIN_PASSWORD ->
  lookup_key form "id" = Some s -> Py.int s = Some lid ->
  data_file w = Some d -> can_write w = false ->
  admin_delete ADMIN_PASSWORD isoformat_at form w = (StorageUnavailable, w).
Proof.
  intros Hpw Hid Hint Hd Hw.
  rewrite (admin_delete_run form w s lid _ w Hpw Hid Hint
             (load_present isoformat_at w d Hd)).
  rewrite Hw. reflexivity.
Qed.

(** X15: [index] trims both query parameters, then selects, in collection
    order, exactly the loaded links that pass the category test (void for
    an empty category) and the text test, the whole collection when both
    parameters are missing or blank.  It answers with the page showing
    these links when each of them has a [created] key, and ends in the
    template's [UndefinedError] when one of them has none; either way the
    clock has been read once and nothing is written. *)
Theorem index_shows (args : multidict) (w w1 : world) (links : list link) :
  load_links isoformat_at w = (Done links, w1) ->
  exists shown,
    shown `sublist_of` links
    /\ (forall l, l ∈ shown
                  <-> l ∈ links
                      /\ (trimmed args "category" = ""
                          \/ ci_equal (get_or (get_category l) "")
                                      (trimmed args "category"))
                      /\ text_hit (trimmed args "q") l)
    /\ (trimmed args "q" = "" -> trimmed args "category" = "" -> shown = links)
    /\ ((forall l, l ∈ shown -> get_created l <> None) ->
        index isoformat_at args w
        = (Done (Rendered "BASE_HTML" shown), later 1 w1))
    /\ ((exists l, l ∈ shown /\ get_created l = None) ->
        index isoformat_at args w = (Raised UndefinedError, later 1 w1)).
Proof.
  intros Hload. rewrite (index_run args w links w1 Hload).
  set (q := trimmed args "q"). set (cat := trimmed args "category").
  exists (filter_by_text (filter_by_category links cat) q).
  split.
  { rewrite filter_by_text_hits. etrans; [apply sublist_filter|].
    apply filter_by_category_sublist. }
  split.
  { intros l. rewrite filter_by_text_hits, list_elem_of_filter.
    destruct cat as [|c cat'] eqn:Ec.
    - simpl. split; [intros [? ?]; auto | intros [? [_ ?]]; split; assumption].
    - rewrite filter_by_category_hits by discriminate.
      rewrite list_elem_of_filter. split.
      + intros [? [? ?]]. auto.
      + intros [? [[H|?] ?]]; [discriminate | auto]. }
  split; [intros -> ->; reflexivity|].
  unfold render_base.
  destruct (forallb _ _) eqn:Hall.
  - split; [reflexivity|]. intros (l & Hl & Hnone).
    exfalso. apply (proj1 (renders_iff _) Hall l Hl Hnone).
  - split; [|reflexivity]. intros Hok.
    apply renders_iff in Hok. congruence.
Qed.

(** X16: when [urlparse] raises on the submitted url, an otherwise
    accepted add ends in that [ValueError] before anything is loaded,
    stamped or written. *)
Theorem add_urlparse_raises (form : multidict) (w : world) :
  posted_secret form = ADMIN_PASSWORD ->
  trimmed form "title" <> "" -> trimmed form "url" <> "" ->
  urlparse_scheme (trimmed form "url") = None ->
  admin_add ADMIN_PASSWORD urlparse_scheme isoformat_at form w
  = (Raised ValueError, w).
Proof.
  intros Hpw Htitle Hurl Hscheme.
  unfold admin_add, posted_secret, trimmed in *.
  rewrite bool_decide_eq_false_2 by (intros H; apply H, Hpw).
  destruct (Py.strip (get_or (lookup_key form "title") "")) as [|c t] eqn:Et;
    [congruence|].
  destruct (Py.strip (get_or (lookup_key form "url") "")) as [|c' u] eqn:Eu;
    [congruence|].
  cbn [negb andb Py.truthy]. rewrite Hscheme. reflexivity.
Qed.

End Routes.

(** ** The category menu *)

Section Menu.

#[local] Instance str_le_total : Total str_le.
Proof. intros a b. apply String.leb_total. Qed.

Lemma truthy_category_some l c :
  truthy_category l = Some c <-> get_category l = Some c /\ c <> "".
Proof.
  unfold truthy_category. destruct (get_category l) as [c0|].
  - destruct c0 as [|a r]; simpl.
    + split; [discriminate | intros [[= <-] H]; congruence].
    + split; [intros [= <-]; split; [reflexivity | discriminate]
             | intros [[= <-] _]; reflexivity].
  - split; [discriminate | intros [H _]; discriminate].
Qed.

(** X17: the category menu holds exactly the non-empty categories that
    occur in the collection, each once, in ascending string order;
    links with no category or an empty one contribute nothing. *)
Theorem categories_spec (links : list link) :
  (forall c, c ∈ categories links
             <-> c <> "" /\ exists l, l ∈ links /\ get_category l = Some c)
  /\ NoDup (categories links)
  /\ Sorted str_le (categories links).
Proof.
  unfold categories. split; [|split].
  - intros c. rewrite merge_sort_Permutation, elem_of_elements,
      elem_of_list_to_set, list_elem_of_omap.
    split.
    + intros (l & Hl & Hc). apply truthy_category_some in Hc as [Hc Hne].
      split; [exact Hne | exists l; auto].
    + intros (Hne & l & Hl & Hc). exists l. split; [exact Hl|].
      apply truthy_category_some. auto.
  - rewrite merge_sort_Permutation. apply NoDup_elements.
  - apply (Sorted_merge_sort str_le).
Qed.

End Menu.

(** ** Concrete runs *)

Module Scenario.

Definition secret : string := "changeme".

(** A clock whose n-th reading is n seconds past ten (n below 10). *)
Definition clock (n : nat) : string :=
  "2024-05-17T10:00:0" ++ String (ascii_of_nat (48 + n)) "".

(** No data file yet; the directory can be written and read. *)
Definition fresh : world := World None true true 0.

(** The seeded document, readable and writable. *)
Definition seeded : world :=
  World (Some (Json (stamped_from clock 0 DEFAULT_LINKS))) true true 3.

(** The seeded document with reading denied. *)
Definition unreadable : world :=
  World (Some (Json (stamped_from clock 0 DEFAULT_LINKS))) false true 3.

Definition add_docs : multidict :=
  [("pass", secret); ("title", " Docs "); ("url", "example.com");
   ("category", "Dev"); ("notes", "")].

Definition add_blank_title : multidict :=
  [("pass", secret); ("title", "   "); ("url", "https://example.com")].

Definition add_wrong_secret : multidict :=
  [("pass", "guess"); ("title", ""); ("url", "")].

Definition delete_seven : multidict := [("pass", secret); ("id", "7")].

Example docs_link_is_stored :
  fst (load_links clock (snd (admin_add secret UrlModel.scheme clock add_docs seeded)))
  = Done (stamped_from clock 0 DEFAULT_LINKS
          ++ [new_link 4 "Docs" "https://example.com" "" "Dev"
                       "2024-05-17T10:00:03Z"])%list.
Proof. reflexivity. Qed.

Example delete_two_removes_github :
  get_title <$> (match fst (load_links clock
                   (snd (admin_delete secret clock
                           [("pass", secret); ("id", " 2 ")] seeded))) with
                 | Done links => links
                 | _ => []
                 end)
  = [Some "Google"; Some "YouTube"].
Proof. reflexivity. Qed.

Example delete_without_number_is_rejected :
  admin_delete secret clock [("pass", secret); ("id", "two")] seeded
  = (ValidationError, seeded).
Proof. reflexivity. Qed.

Example unknown_id_is_not_found :
  redirect_link clock 9 seeded = (NotFound, seeded).
Proof. reflexivity. Qed.



Lemma add_rejects_blank_witness :
  posted_secret add_blank_title = secret
  /\ trimmed add_blank_title "title" = ""
  /\ admin_add secret UrlModel.scheme clock add_blank_title seeded
     = (ValidationError, seeded)
  /\ @ValidationError response <> StorageUnavailable.
Proof.
  split; [reflexivity|]. split; [reflexivity|].
  apply (add_rejects_blank secret UrlModel.scheme clock add_blank_title seeded);
    [reflexivity | left; reflexivity].
Defined.

Lemma load_seeds_fresh_store_witness :
  data_file fresh = None /\ can_write fresh = true /\ can_read fresh = true
  /\ exists l1 l2 l3 w',
       load_links clock fresh = (Done [l1; l2; l3], w')
       /\ get_id l1 = Some 1 /\ get_id l2 = Some 2 /\ get_id l3 = Some 3
       /\ (forall l, l ∈ [l1; l2; l3] ->
             exists c, get_created l = Some c /\ c <> "")
       /\ data_file w' = Some (Json [l1; l2; l3]).
Proof.
  split; [reflexivity|]. split; [reflexivity|]. split; [reflexivity|].
  apply (load_seeds_fresh_store clock fresh); reflexivity.
Defined.

(** C5, refuted as stated: a document that exists but cannot be read
    makes [load_links] return the empty collection, not fail. *)
Lemma unreadable_document_loads_empty :
  data_file unreadable <> None
  /\ can_read unreadable = false
  /\ load_links clock unreadable = (Done [], unreadable)
  /\ fst (load_links clock unreadable) <> StorageUnavailable.
Proof.
  split; [discriminate|]. split; [reflexivity|].
  split; [reflexivity | discriminate].
Qed.

Lemma load_degrades_to_empty_witness :
  data_file unreadable = Some (Json (stamped_from clock 0 DEFAULT_LINKS))
  /\ can_read unreadable = false
  /\ load_links clock unreadable = (Done [], unreadable).
Proof.
  split; [reflexivity|]. split; [reflexivity|].
  apply (load_degrades_to_empty clock unreadable
           (Json (stamped_from clock 0 DEFAULT_LINKS)));
    [reflexivity | left; reflexivity].
Defined.

Lemma delete_absent_id_witness :
  posted_secret delete_seven = secret
  /\ lookup_key delete_seven "id" = Some "7"
  /\ Py.int "7" = Some 7
  /\ load_links clock seeded = (Done (stamped_from clock 0 DEFAULT_LINKS), seeded)
  /\ exists w2,
       admin_delete secret clock delete_seven seeded
       = (Done (Redirect (Some "/admin")), w2)
       /\ load_links clock w2 = (Done (stamped_from clock 0 DEFAULT_LINKS), w2)
       /\ (forall stored, data_file seeded = Some (Json stored) ->
             can_read seeded = true -> data_file w2 = Some (Json stored)).
Proof.
  split; [reflexivity|]. split; [reflexivity|]. split; [reflexivity|].
  split; [reflexivity|].
  apply (delete_absent_id secret clock delete_seven seeded seeded "7" 7
           (stamped_from clock 0 DEFAULT_LINKS));
    [reflexivity | reflexivity | reflexivity | reflexivity | reflexivity |].
  intros l Hl. simpl in Hl.
  repeat (apply elem_of_cons in Hl as [-> | Hl]); [ | | | inversion Hl];
    discriminate.
Defined.

Lemma wrong_secret_forbidden_witness :
  posted_secret add_wrong_secret <> secret
  /\ admin_add secret UrlModel.scheme clock add_wrong_secret seeded
     = (Forbidden, seeded)
  /\ admin_delete secret clock add_wrong_secret seeded = (Forbidden, seeded).
Proof.
  split; [discriminate|].
  apply (wrong_secret_forbidden secret UrlModel.scheme clock add_wrong_secret seeded).
  discriminate.
Defined.

End Scenario.


(** ** Further concrete runs *)

Module Runs.

Import Scenario.

Definition seeds : list link := stamped_from clock 0 DEFAULT_LINKS.

(** No data file, and none can be created. *)
Definition sealed : world := World None true false 0.

(** The seeded document with writing denied. *)
Definition read_only : world := World (Some (Json seeds)) true false 3.

(** A data file that does not parse. *)
Definition garbled : world := World (Some Corrupt) true true 5.

(** Two links under the id 2. *)
Definition doubled : world :=
  World (Some (Json (seeds ++ [new_link 2 "Mirror" "https://mirror.example" "" "" "z"])))
        true true 3.

Definition add_wiki : multidict :=
  [("pass", secret); ("title", "Wiki"); ("url", "http://wiki.local/")].

Definition add_bracket : multidict :=
  [("pass", secret); ("title", "Broken"); ("url", "http://[::1")].

Definition delete_two : multidict := [("pass", secret); ("id", "2")].
Definition delete_four : multidict := [("pass", secret); ("id", " 4 ")].
Definition delete_word : multidict := [("pass", secret); ("id", "four")].

(** A urlparse that rejects an unclosed bracket, as the library does. *)
Definition strict_scheme (url : string) : option string :=
  if Py.contains "[" url && negb (Py.contains "]" url) then None
  else UrlModel.scheme url.

Example menu_of_seeds :
  categories (seeds ++ [new_link 4 "a" "b" "" "dev" "z"; new_link 5 "c" "d" "" "" "z"])
  = ["Dev"; "Media"; "Search"; "dev"].
Proof. vm_compute. reflexivity. Qed.

Lemma load_twice_witness :
  load_links clock (snd (load_links clock fresh))
  = (Done seeds, snd (load_links clock fresh))
  /\ (data_file fresh <> None -> snd (load_links clock fresh) = fresh).
Proof.
  apply (load_twice clock fresh (snd (load_links clock fresh)) seeds).
  reflexivity.
Defined.

Lemma unseedable_store_fails_witness :
  load_links clock sealed = (StorageUnavailable, later 3 sealed)
  /\ index clock [("q", "git")] sealed = (StorageUnavailable, later 3 sealed)
  /\ redirect_link clock 1 sealed = (StorageUnavailable, later 3 sealed)
  /\ admin_index clock sealed = (StorageUnavailable, later 3 sealed)
  /\ api_links clock sealed = (StorageUnavailable, later 3 sealed)
  /\ data_file (later 3 sealed) = None.
Proof.
  apply (unseedable_store_fails clock sealed [("q", "git")] 1); reflexivity.
Defined.

Lemma redirect_not_found_iff_witness :
  redirect_link clock 9 seeded = (NotFound, seeded)
  <-> (forall l, l ∈ seeds -> get_id l <> Some 9).
Proof.
  apply (redirect_not_found_iff clock seeded seeded seeds 9). reflexivity.
Defined.

Lemma redirect_first_match_witness :
  redirect_link clock 2 doubled = (Done (Redirect (Some "https://github.com")), doubled).
Proof.
  apply (redirect_first_match clock doubled doubled
           [set_created "2024-05-17T10:00:00Z" (seed 1 "Google" "https://www.google.com" "Search" "Search")]
           [set_created "2024-05-17T10:00:02Z" (seed 3 "YouTube" "https://www.youtube.com" "Videos" "Media");
            new_link 2 "Mirror" "https://mirror.example" "" "" "z"]
           (set_created "2024-05-17T10:00:01Z" (seed 2 "GitHub" "https://github.com" "Code hosting" "Dev"))
           2).
  - reflexivity.
  - reflexivity.
  - intros l Hl. apply list_elem_of_singleton in Hl as ->. discriminate.
Defined.

Lemma readers_keep_document_witness :
  admin_index clock unreadable = (Done (Rendered "ADMIN_HTML" []), unreadable)
  /\ api_links clock unreadable = (Done (JsonBody []), unreadable)
  /\ snd (redirect_link clock 1 unreadable) = unreadable
  /\ snd (index clock [] unreadable) = later 1 unreadable
  /\ (fst (index clock [] unreadable) = Raised UndefinedError
      \/ exists shown, fst (index clock [] unreadable)
                       = Done (Rendered "BASE_HTML" shown)).
Proof.
  apply (readers_keep_document clock unreadable (Json seeds) [] 1). reflexivity.
Defined.


Lemma delete_rejects_bad_id_witness :
  admin_delete secret clock delete_word seeded = (ValidationError, seeded).
Proof.
  apply (delete_rejects_bad_id secret clock delete_word seeded); reflexivity.
Defined.

Lemma add_then_delete_restores_witness :
  exists w2 w3,
    admin_add secret UrlModel.scheme clock add_docs seeded
    = (Done (Redirect (Some "/admin")), w2)
    /\ admin_delete secret clock delete_four w2
       = (Done (Redirect (Some "/admin")), w3)
    /\ load_links clock w3 = (Done seeds, w3).
Proof.
  apply (add_then_delete_restores secret UrlModel.scheme clock
           add_docs delete_four seeded seeded "" " 4 " seeds);
    try reflexivity; discriminate.
Defined.

Lemma deleted_id_is_reused_witness :
  exists w2 w3 w4 now now',
    admin_add secret UrlModel.scheme clock add_docs seeded
    = (Done (Redirect (Some "/admin")), w2)
    /\ load_links clock w2
       = (Done (seeds ++ [added_link add_docs "" (next_id seeds) now])%list, w2)
    /\ admin_delete secret clock delete_four w2
       = (Done (Redirect (Some "/admin")), w3)
    /\ admin_add secret UrlModel.scheme clock add_wiki w3
       = (Done (Redirect (Some "/admin")), w4)
    /\ load_links clock w4
       = (Done (seeds ++ [added_link add_wiki "http" (next_id seeds) now'])%list, w4).
Proof.
  apply (deleted_id_is_reused secret UrlModel.scheme clock
           add_docs delete_four add_wiki seeded seeded "" " 4 " "http" seeds);
    try reflexivity; discriminate.
Defined.


Lemma add_overwrites_broken_document_witness :
  admin_add secret UrlModel.scheme clock add_wiki garbled
  = (Done (Redirect (Some "/admin")),
     later 1 (rewritten [added_link add_wiki "http" 1 (clock 5)] garbled)).
Proof.
  apply (add_overwrites_broken_document secret UrlModel.scheme clock
           add_wiki garbled Corrupt "http");
    try reflexivity; try discriminate. right. reflexivity.
Defined.

Lemma delete_overwrites_broken_document_witness :
  admin_delete secret clock delete_two unreadable
  = (Done (Redirect (Some "/admin")), rewritten [] unreadable).
Proof.
  apply (delete_overwrites_broken_document secret clock delete_two unreadable
           (Json seeds) "2" 2);
    try reflexivity. left. reflexivity.
Defined.

Lemma add_write_denied_witness :
  admin_add secret UrlModel.scheme clock add_wiki read_only
  = (StorageUnavailable, later 1 read_only)
  /\ data_file (later 1 read_only) = Some (Json seeds).
Proof.
  apply (add_write_denied secret UrlModel.scheme clock add_wiki read_only
           (Json seeds) "http");
    try reflexivity; discriminate.
Defined.

Lemma delete_write_denied_witness :
  admin_delete secret clock delete_two read_only = (StorageUnavailable, read_only).
Proof.
  apply (delete_write_denied secret clock delete_two read_only (Json seeds) "2" 2);
    reflexivity.
Defined.

Definition git_dev : multidict := [("q", " GIT "); ("category", "dev")].

Lemma index_shows_witness :
  exists shown,
    shown `sublist_of` seeds
    /\ (forall l, l ∈ shown
                  <-> l ∈ seeds
                      /\ (trimmed git_dev "category" = ""
                          \/ ci_equal (get_or (get_category l) "")
                                      (trimmed git_dev "category"))
                      /\ text_hit (trimmed git_dev "q") l)
    /\ (trimmed git_dev "q" = "" -> trimmed git_dev "category" = "" -> shown = seeds)
    /\ ((forall l, l ∈ shown -> get_created l <> None) ->
        index clock git_dev seeded
        = (Done (Rendered "BASE_HTML" shown), later 1 seeded))
    /\ ((exists l, l ∈ shown /\ get_created l = None) ->
        index clock git_dev seeded = (Raised UndefinedError, later 1 seeded)).
Proof.
  apply (index_shows clock git_dev seeded seeded seeds). reflexivity.
Defined.

(** A document one of whose links has no [created] key. *)
Definition undated : world :=
  World (Some (Json [Link (Some 1) (Some "Old") (Some "https://old.example")
                          (Some "") (Some "") None]))
        true true 0.

Example index_fails_on_undated_link :
  index clock [] undated = (Raised UndefinedError, later 1 undated)
  /\ index clock [("q", "zzz")] undated
     = (Done (Rendered "BASE_HTML" []), later 1 undated)
  /\ fst (admin_index clock undated)
     = Done (Rendered "ADMIN_HTML"
               [Link (Some 1) (Some "Old") (Some "https://old.example")
                     (Some "") (Some "") None]).
Proof. repeat split; reflexivity. Qed.

Example int_refuses_separators_and_long_literals :
  Py.int (String (ascii_of_nat 28) "2") = None
  /\ Py.int (String (ascii_of_nat 160) "2") = Some 2
  /\ Py.int "+0_7" = Some 7
  /\ Py.int "- 7" = None.
Proof. repeat split; reflexivity. Qed.

(** C6, refuted as stated: a delete of an id no link carries rewrites a
    document it could not read to the empty collection, and ends in an
    error when the file cannot be written. *)
Lemma delete_absent_id_not_harmless :
  (forall l, l ∈ seeds -> get_id l <> Some 7)
  /\ data_file unreadable = Some (Json seeds)
  /\ admin_delete secret clock delete_seven unreadable
     = (Done (Redirect (Some "/admin")), rewritten [] unreadable)
  /\ data_file (rewritten [] unreadable) = Some (Json [])
  /\ Json [] <> Json seeds
  /\ data_file read_only = Some (Json seeds)
  /\ admin_delete secret clock delete_seven read_only
     = (StorageUnavailable, read_only).
Proof.
  split.
  { intros l Hl. unfold seeds in Hl. simpl in Hl.
    repeat (apply elem_of_cons in Hl as [-> | Hl]); [ | | | inversion Hl];
      discriminate. }
  repeat split; try reflexivity. discriminate.
Qed.

Lemma add_urlparse_raises_witness :
  admin_add secret strict_scheme clock add_bracket seeded = (Raised ValueError, seeded).
Proof.
  apply (add_urlparse_raises secret strict_scheme clock add_bracket seeded);
    try reflexivity; discriminate.
Defined.

Example index_git_dev_shows_github :
  index clock git_dev seeded
  = (Done (Rendered "BASE_HTML"
             [set_created "2024-05-17T10:00:01Z"
                (seed 2 "GitHub" "https://github.com" "Code hosting" "Dev")]),
     later 1 seeded).
Proof. reflexivity. Qed.

End Runs.
